(** * docs/conf.py of posix-cpp-timer: the Sphinx configuration script

    The script defines [configureDoxyfile], which instantiates the template
    [Doxyfile.in] into [Doxyfile] by two calls of [str.replace], and a
    top-level part that looks at the environment variable [READTHEDOCS],
    possibly runs doxygen, and fills the module namespace with the options
    Sphinx, Breathe and rst2pdf read.

    The development has three layers: Python's [str] operations on
    [string], a small exception/state monad over a file system, an event
    trace and the module namespace, and the script itself.

    The content of a file is the text that [read()] returns and [write()]
    takes; the encoding and the newline handling of Python's text mode are
    not part of the model. *)

From Stdlib Require Import Ascii ZArith Lia.
From Stdlib Require String.
From stdpp Require Import base option gmap strings list fin_maps.

Local Open Scope Z_scope.
Local Open Scope nat_scope.
Local Set Warnings "-register-all".

(** ** Python [str] operations *)

Module Str.

(** [s.startswith(p)] *)
Fixpoint startswith (p s : string) : bool :=
  match p, s with
  | EmptyString, _ => true
  | String a p', String b s' => if Ascii.eqb a b then startswith p' s' else false
  | String _ _, EmptyString => false
  end.

(** [s[n:]] *)
Fixpoint drop (n : nat) (s : string) : string :=
  match n, s with
  | O, _ => s
  | S n', String _ s' => drop n' s'
  | S _, EmptyString => EmptyString
  end.

(** [p in s] *)
Fixpoint contains (p s : string) : bool :=
  startswith p s ||
  match s with
  | EmptyString => false
  | String _ s' => contains p s'
  end.

(** [c in s] for one character *)
Fixpoint has_char (c : ascii) (s : string) : bool :=
  match s with
  | EmptyString => false
  | String b s' => Ascii.eqb c b || has_char c s'
  end.

(** The scan of [str.replace] for a non-empty [old]: left to right, an
    occurrence of [old] at the cursor is replaced by [new] and the cursor
    jumps behind it, so occurrences that overlap an earlier one are not
    seen; any other character is copied.  [fuel] bounds the number of
    steps; [String.length s] steps always suffice. *)
Fixpoint replace_scan (fuel : nat) (old new s : string) : string :=
  match fuel with
  | O => s
  | S fuel' =>
      match s with
      | EmptyString => EmptyString
      | String c t =>
          if startswith old s
          then new +:+ replace_scan fuel' old new (drop (String.length old) s)
          else String c (replace_scan fuel' old new t)
      end
  end.

(** With an empty [old] Python inserts [new] before every character and
    at the end. *)
Fixpoint interleave (new s : string) : string :=
  match s with
  | EmptyString => new
  | String c t => new +:+ String c (interleave new t)
  end.

(** [s.replace(old, new)] *)
Definition replace (s old new : string) : string :=
  match old with
  | EmptyString => interleave new s
  | String _ _ => replace_scan (String.length s) old new s
  end.

End Str.

(** The two placeholder tokens of the template. *)
Definition TOKEN_INPUT : string := "@DOXYGEN_INPUT_DIR@".
Definition TOKEN_OUTPUT : string := "@DOXYGEN_OUTPUT_DIR@".

(** ** The world the script runs in *)

(** Python values that the script stores in its module namespace. *)
Inductive value :=
| VNone
| VBool (b : bool)
| VInt (n : Z)
| VStr (s : string)
| VList (l : list value)
| VTuple (l : list value)
| VDict (d : gmap string value).

(** A directory entry: a regular file with its content and the two
    permissions [open] looks at, or a directory. *)
Inductive node :=
| File (content : string) (readable writable : bool)
| Dir.

Inductive mode := ModeR | ModeW.

(** What an observer of a run sees, in order. *)
Inductive event :=
| EvCall (func : string) (args : list string)
| EvOpen (path : string) (m : mode)
| EvWrite (path : string) (data : string)
| EvSubprocess (cmd : string).

Inductive exn :=
| FileNotFoundError (path : string)
| PermissionError (path : string)
| IsADirectoryError (path : string)
| NameError (name : string)
| TypeError (what : string).

Inductive result (A : Type) :=
| Ok (a : A)
| Raise (e : exn).
Arguments Ok {A} a.
Arguments Raise {A} e.

Record state := mkState {
  fs : gmap string node;          (* the working directory *)
  cwd_writable : bool;            (* may new entries be created in it *)
  trace : list event;
  globals : gmap string value     (* the module namespace of conf.py *)
}.

(** The part of the world the script only reads: the process environment
    and the behaviour of the shell, which maps a command line and the
    directory to an exit status and the directory it leaves behind. *)
Record Env := mkEnv {
  environ : gmap string string;
  shell : string → gmap string node → Z * gmap string node
}.

(** Statements run in an exception monad over [state]; the state reached
    when an exception is raised is kept. *)
Definition M (A : Type) : Type := state → result A * state.

Global Instance M_ret : MRet M := λ A a st, (Ok a, st).
Global Instance M_bind : MBind M := λ A B f m st,
  match m st with
  | (Ok a, st') => f a st'
  | (Raise e, st') => (Raise e, st')
  end.

Definition raise {A} (e : exn) : M A := λ st, (Raise e, st).

Definition log (e : event) : M unit := λ st,
  (Ok tt, mkState (fs st) (cwd_writable st) (trace st ++ [e]) (globals st)).

Definition set_fs (f : gmap string node) : M unit := λ st,
  (Ok tt, mkState f (cwd_writable st) (trace st) (globals st)).

Definition get_state : M state := λ st, (Ok st, st).

Definition from_result {A} (r : result A) : M A := λ st, (r, st).

(** What [open(path, 'r')] and [file.read()] give on a directory [f]. *)
Definition read_file (f : gmap string node) (path : string) : result string :=
  match f !! path with
  | None => Raise (FileNotFoundError path)
  | Some Dir => Raise (IsADirectoryError path)
  | Some (File content r _) =>
      if r then Ok content else Raise (PermissionError path)
  end.

(** What [open(path, 'w')] does to a directory [f]: the file is created
    (when the directory allows it) or truncated. *)
Definition truncate (f : gmap string node) (creatable : bool) (path : string)
  : result (gmap string node) :=
  match f !! path with
  | None =>
      if creatable then Ok (<[path := File "" true true]> f)
      else Raise (PermissionError path)
  | Some Dir => Raise (IsADirectoryError path)
  | Some (File _ r w) =>
      if w then Ok (<[path := File "" r w]> f)
      else Raise (PermissionError path)
  end.

(** [open(path, 'r')] followed by [file.read()] *)
Definition open_read (path : string) : M string :=
  log (EvOpen path ModeR);;
  st ← get_state;
  from_result (read_file (fs st) path).

(** [open(path, 'w')] *)
Definition open_write (path : string) : M unit :=
  log (EvOpen path ModeW);;
  st ← get_state;
  f ← from_result (truncate (fs st) (cwd_writable st) path);
  set_fs f.

(** [file.write(data)] on a file opened with ['w'] *)
Definition file_write (path data : string) : M unit :=
  log (EvWrite path data);;
  st ← get_state;
  match fs st !! path with
  | Some (File old r w) => set_fs (<[path := File (old +:+ data) r w]> (fs st))
  | _ => raise (FileNotFoundError path)
  end.

(** [subprocess.call(cmd, shell=True)]: blocks, returns the exit status *)
Definition subprocess_call (env : Env) (cmd : string) : M Z := λ st,
  let '(rc, f) := shell env cmd (fs st) in
  (Ok rc, mkState f (cwd_writable st) (trace st ++ [EvSubprocess cmd]) (globals st)).

(** [name = v] at module level *)
Definition assign (name : string) (v : value) : M unit := λ st,
  (Ok tt, mkState (fs st) (cwd_writable st) (trace st) (<[name := v]> (globals st))).

(** [name[key] = v] at module level, on the dict object bound to [name] *)
Definition setitem (name key : string) (v : value) : M unit := λ st,
  match globals st !! name with
  | None => (Raise (NameError name), st)
  | Some (VDict d) =>
      (Ok tt, mkState (fs st) (cwd_writable st) (trace st)
                (<[name := VDict (<[key := v]> d)]> (globals st)))
  | Some _ => (Raise (TypeError name), st)
  end.

(** ** The script *)

(** conf.py, lines 19-28 *)
Definition configureDoxyfile (input_dir output_dir : string) : M unit :=
  log (EvCall "configureDoxyfile" [input_dir; output_dir]);;
  filedata ← open_read "Doxyfile.in";
  let filedata := Str.replace filedata TOKEN_INPUT input_dir in
  let filedata := Str.replace filedata TOKEN_OUTPUT output_dir in
  open_write "Doxyfile";;
  file_write "Doxyfile" filedata.

(** conf.py, line 31: [os.environ.get('READTHEDOCS', None) == 'True'] *)
Definition read_the_docs_build (env : Env) : bool :=
  bool_decide (environ env !! "READTHEDOCS" = Some "True").

(** conf.py, lines 31-39 *)
Definition doxygen_section (env : Env) : M unit :=
  assign "read_the_docs_build" (VBool (read_the_docs_build env));;
  assign "breathe_projects" (VDict ∅);;
  if read_the_docs_build env then
    let input_dir := "../include" in
    let output_dir := "build" in
    assign "input_dir" (VStr input_dir);;
    assign "output_dir" (VStr output_dir);;
    configureDoxyfile input_dir output_dir;;
    _ ← subprocess_call env "doxygen";
    setitem "breathe_projects" "posixcpptimer" (VStr (output_dir +:+ "/xml"))
  else mret tt.

(** conf.py, lines 44-82 *)
Definition general_section : M unit :=
  assign "project" (VStr "posixcpptimer");;
  assign "copyright" (VStr "2021, Andrei Mironenko");;
  assign "author" (VStr "Andrei Mironenko");;
  assign "master_doc" (VStr "index");;
  assign "primary_domain" (VStr "cpp");;
  assign "breathe_domain_by_extension" (VDict {[ "h" := VStr "cpp" ]});;
  assign "extensions"
    (VList [VStr "breathe"; VStr "sphinx.ext.autodoc"; VStr "rst2pdf.pdfbuilder"]);;
  assign "templates_path" (VList [VStr "_templates"]);;
  assign "exclude_patterns" (VList [VStr "_build"; VStr "Thumbs.db"; VStr ".DS_Store"]);;
  assign "html_theme" (VStr "sphinx_rtd_theme");;
  assign "html_static_path" (VList []).

(** conf.py, lines 86-87 *)
Definition breathe_section : M unit :=
  setitem "breathe_projects" "posixcpptimer" (VStr "../build/docs/doxygen/xml");;
  assign "breathe_default_project" (VStr "posixcpptimer").

(** conf.py, lines 104-191 *)
Definition pdf_section : M unit :=
  assign "pdf_documents"
    (VList [VTuple [VStr "index"; VStr "posixcpptimer";
                    VStr "Posix C++17 timer wrapper library";
                    VStr "Andrei Mironenko"]]);;
  assign "pdf_stylesheets" (VList [VStr "sphinx"; VStr "kerning"; VStr "a4"]);;
  assign "pdf_style_path" (VList [VStr "."; VStr "_styles"]);;
  assign "pdf_header" (VStr "section ###Section### ###SectNum###");;
  assign "pdf_footer" (VStr "Page ###Page###");;
  assign "pdf_inline_footnotes" (VBool true);;
  assign "pdf_use_coverpage" (VBool true);;
  assign "pdf_cover_template" (VStr "sphinxcover.tmpl");;
  assign "pdf_page_template" (VStr "cutePage");;
  assign "pdf_toc_depth" (VInt 9999);;
  assign "pdf_use_numbered_links" (VBool false);;
  assign "pdf_fit_background_mode" (VStr "scale");;
  assign "pdf_repeat_table_rows" (VBool true).

(** The whole module, top to bottom. *)
Definition conf (env : Env) : M unit :=
  doxygen_section env;;
  general_section;;
  breathe_section;;
  pdf_section.

(** ** Observations on a state *)

(** The content of the regular file at [path], if there is one. *)
Definition file_content (st : state) (path : string) : option string :=
  match fs st !! path with
  | Some (File content _ _) => Some content
  | _ => None
  end.

(** [breathe_projects[key]] when it is bound to a string. *)
Definition breathe_projects (st : state) (key : string) : option string :=
  match globals st !! "breathe_projects" with
  | Some (VDict d) =>
      match d !! key with
      | Some (VStr s) => Some s
      | _ => None
      end
  | _ => None
  end.

(** [open(path, 'w')] succeeds in [st]. *)
Definition can_open_write (st : state) (path : string) : bool :=
  match truncate (fs st) (cwd_writable st) path with
  | Ok _ => true
  | Raise _ => false
  end.

(** [st] with more events observed. *)
Definition logged (evs : list event) (st : state) : state :=
  mkState (fs st) (cwd_writable st) (trace st ++ evs) (globals st).

(** The module namespace when the doxygen section reaches the call of
    [configureDoxyfile]. *)
Definition globals_at_call (g : gmap string value) : gmap string value :=
  <["output_dir" := VStr "build"]>
    (<["input_dir" := VStr "../include"]>
       (<["breathe_projects" := VDict ∅]>
          (<["read_the_docs_build" := VBool true]> g))).

(** The events of a complete call of [configureDoxyfile] that writes [data]. *)
Definition configure_events (input_dir output_dir data : string) : list event :=
  [EvCall "configureDoxyfile" [input_dir; output_dir];
   EvOpen "Doxyfile.in" ModeR;
   EvOpen "Doxyfile" ModeW;
   EvWrite "Doxyfile" data].

(** ** The substitution as the specification words it

    One pass over the template: every occurrence of the input token is
    replaced by [input_dir], every occurrence of the output token by
    [output_dir], every other character is copied. *)

Module Spec.

Fixpoint substitute_scan (fuel : nat) (input_dir output_dir s : string) : string :=
  match fuel with
  | O => s
  | S fuel' =>
      match s with
      | EmptyString => EmptyString
      | String c t =>
          if Str.startswith TOKEN_INPUT s then
            input_dir +:+
            substitute_scan fuel' input_dir output_dir
              (Str.drop (String.length TOKEN_INPUT) s)
          else if Str.startswith TOKEN_OUTPUT s then
            output_dir +:+
            substitute_scan fuel' input_dir output_dir
              (Str.drop (String.length TOKEN_OUTPUT) s)
          else String c (substitute_scan fuel' input_dir output_dir t)
      end
  end.

Definition substitute (template input_dir output_dir : string) : string :=
  substitute_scan (String.length template) input_dir output_dir template.

End Spec.

(** The output token without its two [@], and the text in which the
    closing [@] of an output token opens an input token. *)
Definition OUTPUT_STEM : string := "DOXYGEN_OUTPUT_DIR".

(** The input token without its two [@], and the line separator. *)
Definition INPUT_STEM : string := "DOXYGEN_INPUT_DIR".

(** ** Sample worlds *)

Definition sample_template : string :=
  "INPUT = @DOXYGEN_INPUT_DIR@ OUTPUT_DIRECTORY = @DOXYGEN_OUTPUT_DIR@ GENERATE_XML = YES".


(** A template with one token of each kind, apart from each other. *)
Definition two_token_template : string :=
  "@DOXYGEN_INPUT_DIR@ @DOXYGEN_OUTPUT_DIR@".

(** A template in which the closing [@] of an output token opens an input
    token. *)
Definition overlapping_template : string :=
  "@DOXYGEN_OUTPUT_DIR@DOXYGEN_INPUT_DIR@".



(** A template with the input token only, and an input directory whose
    name contains the output token. *)
Definition input_only_template : string := "INPUT = @DOXYGEN_INPUT_DIR@".
Definition tricky_input_dir : string := "src/@DOXYGEN_OUTPUT_DIR@/include".

(** A working directory with the template and one more file, writable, in
    a fresh module namespace. *)
Definition sample_state (template : string) : state :=
  mkState {[ "Doxyfile.in" := File template true true;
             "index.rst" := File "posixcpptimer" true true ]}
          true [] ∅.



(** A working directory in which [Doxyfile] exists and is read-only. *)
Definition readonly_state (template : string) : state :=
  mkState {[ "Doxyfile.in" := File template true true;
             "Doxyfile" := File "old" true false ]}
          true [] ∅.

(** A shell whose every command leaves the directory alone and exits
    with [rc]. *)
Definition quiet_shell (rc : Z) : string → gmap string node → Z * gmap string node :=
  λ _ f, (rc, f).

Definition rtd_env (rc : Z) : Env :=
  mkEnv {[ "READTHEDOCS" := "True" ]} (quiet_shell rc).

Definition local_env : Env := mkEnv ∅ (quiet_shell 0).

(** [READTHEDOCS] set, but not to ["True"]. *)
Definition lowercase_env : Env :=
  mkEnv {[ "READTHEDOCS" := "true" ]} (quiet_shell 0).

(** * Facts *)

Example replace_ex1 : Str.replace "a-b-c" "-" "+" = "a+b+c".
Proof. reflexivity. Qed.

Example replace_ex2 : Str.replace "aaa" "aa" "b" = "ba".
Proof. reflexivity. Qed.

Example replace_ex3 : Str.replace "ab" "" "-" = "-a-b-".
Proof. reflexivity. Qed.

Example replace_ex4 : Str.replace "abc" "x" "y" = "abc".
Proof. reflexivity. Qed.

Example local_env_is_not_rtd : read_the_docs_build local_env = false.
Proof. reflexivity. Qed.

Example conf_rtd_runs :
  fst (conf (rtd_env 0) (sample_state sample_template)) = Ok tt.
Proof. vm_compute. reflexivity. Qed.

Example conf_rtd_doxyfile :
  file_content (snd (conf (rtd_env 0) (sample_state sample_template))) "Doxyfile"
  = Some "INPUT = ../include OUTPUT_DIRECTORY = build GENERATE_XML = YES".
Proof. vm_compute. reflexivity. Qed.

(** ** Strings *)

Module StrFacts.
Import Str.

(** stdpp keeps [+:+] from unfolding under [simpl]; these two equations
    are its computation rules. *)
Lemma append_empty_l (s : string) : "" +:+ s = s.
Proof. reflexivity. Qed.

Lemma append_cons (c : ascii) (a b : string) :
  String c a +:+ b = String c (a +:+ b).
Proof. reflexivity. Qed.

Ltac app_simpl := rewrite ?append_cons, ?append_empty_l.

Lemma append_empty_r (s : string) : s +:+ "" = s.
Proof. induction s as [|c s IH]; app_simpl; [done | by rewrite IH]. Qed.

Lemma append_assoc (a b c : string) : (a +:+ b) +:+ c = a +:+ (b +:+ c).
Proof. induction a as [|x a IH]; app_simpl; [done | by rewrite IH]. Qed.

Lemma length_append (a b : string) :
  String.length (a +:+ b) = String.length a + String.length b.
Proof. induction a as [|x a IH]; app_simpl; simpl; [done | by rewrite IH]. Qed.

Lemma length_drop (n : nat) (s : string) :
  String.length (drop n s) = String.length s - n.
Proof.
  revert s; induction n as [|n IH]; intros [|c s]; simpl; try done; lia.
Qed.

Lemma drop_append (p r : string) : drop (String.length p) (p +:+ r) = r.
Proof. induction p as [|c p IH]; app_simpl; simpl; [by destruct r | done]. Qed.

Lemma startswith_append (p r : string) : startswith p (p +:+ r) = true.
Proof.
  induction p as [|c p IH]; app_simpl; simpl; [done |].
  by rewrite Ascii.eqb_refl.
Qed.

Lemma startswith_inv (p s : string) :
  startswith p s = true → s = p +:+ drop (String.length p) s.
Proof.
  revert s; induction p as [|a p IH]; intros [|b s]; simpl; try done.
  destruct (Ascii.eqb a b) eqn:E; [|done].
  apply Ascii.eqb_eq in E as ->. intros H. app_simpl. f_equal. by apply IH.
Qed.

Lemma startswith_iff (p s : string) :
  startswith p s = true ↔ ∃ r, s = p +:+ r.
Proof.
  split.
  - intros H. eexists. by apply startswith_inv.
  - intros [r ->]. apply startswith_append.
Qed.


Lemma startswith_cons (a b : ascii) (p s : string) :
  startswith (String a p) (String b s) = true ↔ a = b ∧ startswith p s = true.
Proof.
  simpl. destruct (Ascii.eqb a b) eqn:E.
  - apply Ascii.eqb_eq in E. by split; [intros; split | intros []].
  - apply Ascii.eqb_neq in E. by split; [| intros []].
Qed.

Lemma has_char_append (c : ascii) (a b : string) :
  has_char c (a +:+ b) = has_char c a || has_char c b.
Proof.
  induction a as [|x a IH]; app_simpl; simpl; [done |].
  by rewrite IH, orb_assoc.
Qed.

(** A pattern that begins with a character the text lacks is not in it. *)
Lemma startswith_has_char (c : ascii) (p s : string) :
  startswith (String c p) s = true → has_char c s = true.
Proof.
  destruct s as [|b s]; simpl; [done |].
  by destruct (Ascii.eqb c b).
Qed.

Lemma contains_startswith (p s : string) :
  startswith p s = true → contains p s = true.
Proof. destruct s; simpl; intros ->; done. Qed.

Lemma contains_cons (p : string) (c : ascii) (s : string) :
  contains p s = true → contains p (String c s) = true.
Proof. simpl. intros ->. apply orb_true_r. Qed.

Lemma contains_append_l (p a s : string) :
  contains p s = true → contains p (a +:+ s) = true.
Proof.
  induction a as [|c a IH]; app_simpl; [done |].
  intros H. apply contains_cons. by apply IH.
Qed.

Lemma not_contains_inv (p : string) (c : ascii) (s : string) :
  contains p (String c s) = false →
  startswith p (String c s) = false ∧ contains p s = false.
Proof. cbn [contains]. apply orb_false_elim. Qed.

(** *** The scan does not depend on spare fuel *)

Section Scan.
Variables old new : string.
Hypothesis old_nonempty : old ≠ "".

Lemma old_length_pos : 0 < String.length old.
Proof using old_nonempty. destruct old; [done | simpl; lia]. Qed.

Lemma replace_scan_fuel (n m : nat) (s : string) :
  String.length s ≤ n → String.length s ≤ m →
  replace_scan n old new s = replace_scan m old new s.
Proof using old_nonempty.
  revert m s; induction n as [|n IH]; intros m s Hn Hm.
  - destruct s; [|simpl in Hn; lia]. by destruct m.
  - destruct m as [|m].
    { destruct s; [done | simpl in Hm; lia]. }
    destruct s as [|c t]; [done |].
    cbn [replace_scan].
    destruct (startswith old (String c t)).
    + f_equal. pose proof old_length_pos.
      apply IH; rewrite length_drop; simpl in *; lia.
    + f_equal. apply IH; simpl in *; lia.
Qed.

Lemma replace_unfold (s : string) :
  replace s old new = replace_scan (String.length s) old new s.
Proof using old_nonempty. unfold replace. by destruct old. Qed.

Lemma replace_empty : replace "" old new = "".
Proof using old_nonempty. by rewrite replace_unfold. Qed.

(** An occurrence at the cursor is replaced and skipped. *)
Lemma replace_hit (r : string) :
  replace (old +:+ r) old new = new +:+ replace r old new.
Proof using old_nonempty.
  rewrite !replace_unfold.
  destruct (old +:+ r) as [|c t] eqn:E.
  { destruct old; [done | discriminate]. }
  cbn [String.length replace_scan].
  rewrite <- E, startswith_append, drop_append. f_equal.
  apply replace_scan_fuel; [|done].
  apply (f_equal String.length) in E. rewrite length_append in E.
  pose proof old_length_pos. simpl in E. lia.
Qed.

(** Any other character is copied. *)
Lemma replace_miss (c : ascii) (t : string) :
  startswith old (String c t) = false →
  replace (String c t) old new = String c (replace t old new).
Proof using old_nonempty.
  intros H. rewrite !replace_unfold.
  cbn [String.length replace_scan]. by rewrite H.
Qed.

(** A stretch of text in which no occurrence begins is copied. *)
Lemma replace_skip (a s : string) :
  (∀ k, k < String.length a → startswith old (drop k (a +:+ s)) = false) →
  replace (a +:+ s) old new = a +:+ replace s old new.
Proof using old_nonempty.
  induction a as [|c a IH]; intros H; [done |].
  app_simpl. rewrite replace_miss.
  - f_equal. apply IH. intros k Hk. apply (H (S k)). simpl; lia.
  - apply (H 0). simpl; lia.
Qed.



End Scan.

(** *** The one-pass substitution of the specification *)

Section Substitute.
Variables input_dir output_dir : string.


Lemma substitute_empty : Spec.substitute "" input_dir output_dir = "".
Proof. reflexivity. Qed.






End Substitute.

Lemma not_contains_suffix (p a s : string) :
  contains p (a +:+ s) = false → contains p s = false.
Proof.
  intros H. destruct (contains p s) eqn:E; [|done].
  by rewrite (contains_append_l p a s E) in H.
Qed.


(** Two prefixes of one text: one is a prefix of the other. *)
Lemma startswith_app_cases (p a y : string) :
  startswith p (a +:+ y) = true →
  (∃ p2, p = a +:+ p2) ∨ (∃ a2, a = p +:+ a2).
Proof.
  revert p; induction a as [|x a IH]; intros p H.
  - left. by exists p.
  - destruct p as [|c p]; [right; by eexists |].
    rewrite append_cons in H. apply startswith_cons in H as [-> H].
    destruct (IH _ H) as [[p2 ->] | [a2 ->]]; [left | right]; by eexists.
Qed.

(** A text without [@] that is a prefix of [q@...] is a prefix of [q]. *)
Lemma prefix_before_at (i q p2 : string) :
  has_char "@" i = false → q +:+ "@" = i +:+ p2 → ∃ q2, q = i +:+ q2.
Proof.
  revert q; induction i as [|x i IH]; intros q Hi E.
  - by exists q.
  - simpl in Hi. apply orb_false_elim in Hi as [Hx Hi].
    destruct q as [|c q]; rewrite !append_cons in E.
    + rewrite append_empty_l in E.
      assert (x = "@"%char) as -> by congruence. done.
    + assert (c = x) as -> by congruence.
      assert (q +:+ "@" = i +:+ p2) as E' by congruence.
      destruct (IH _ Hi E') as [q2 ->]. by eexists.
Qed.

End StrFacts.

(** ** The two replacements against the one-pass substitution *)

Module TokenFacts.
Import Str StrFacts.



Section Sequential.
Variables input_dir output_dir : string.
Hypothesis no_at : has_char "@" input_dir = false.
Hypothesis not_in_stem : contains input_dir OUTPUT_STEM = false.





End Sequential.

End TokenFacts.

(** ** Running statements *)

Module RunFacts.
Import Str StrFacts.

Lemma bind_ok {A B} (m : M A) (k : A → M B) (st st' : state) (a : A) :
  m st = (Ok a, st') → (m ≫= k) st = k a st'.
Proof. intros H. unfold mbind, M_bind. by rewrite H. Qed.

Lemma bind_raise {A B} (m : M A) (k : A → M B) (st st' : state) (e : exn) :
  m st = (Raise e, st') → (m ≫= k) st = (Raise e, st').
Proof. intros H. unfold mbind, M_bind. by rewrite H. Qed.

Lemma assign_bind {B} (name : string) (v : value) (k : unit → M B) (st : state) :
  (assign name v ≫= k) st
  = k tt (mkState (fs st) (cwd_writable st) (trace st) (<[name := v]> (globals st))).
Proof. reflexivity. Qed.

Lemma assign_run (name : string) (v : value) (st : state) :
  assign name v st
  = (Ok tt, mkState (fs st) (cwd_writable st) (trace st) (<[name := v]> (globals st))).
Proof. reflexivity. Qed.

(** A run of assignments, one statement at a time. *)
Ltac assigns :=
  repeat (rewrite assign_bind; cbn [fs cwd_writable trace globals]);
  rewrite ?assign_run; cbn [fs cwd_writable trace globals].

(** The exit status [subprocess.call] returns is dropped by the caller. *)
Lemma subprocess_call_discard {B} (env : Env) (cmd : string) (k : M B) (st : state) :
  (subprocess_call env cmd ≫= λ _, k) st
  = k (mkState (snd (shell env cmd (fs st))) (cwd_writable st)
         (trace st ++ [EvSubprocess cmd]) (globals st)).
Proof.
  unfold mbind, M_bind, subprocess_call.
  by destruct (shell env cmd (fs st)).
Qed.

Lemma setitem_run (name key : string) (v : value) (st : state)
    (d : gmap string value) :
  globals st !! name = Some (VDict d) →
  setitem name key v st
  = (Ok tt, mkState (fs st) (cwd_writable st) (trace st)
              (<[name := VDict (<[key := v]> d)]> (globals st))).
Proof. intros H. unfold setitem. by rewrite H. Qed.

Lemma truncate_ok (f f' : gmap string node) (cr : bool) (path : string) :
  truncate f cr path = Ok f' → ∃ r w, f' = <[path := File "" r w]> f.
Proof.
  unfold truncate. intros H.
  destruct (f !! path) as [[c r w|]|]; [destruct w | | destruct cr];
    simplify_eq; by eexists _, _.
Qed.

Lemma can_open_write_true (st : state) (path : string) :
  can_open_write st path = true →
  ∃ f, truncate (fs st) (cwd_writable st) path = Ok f.
Proof.
  unfold can_open_write.
  destruct (truncate _ _ _) as [f|]; [by exists f | done].
Qed.

Ltac run :=
  unfold configureDoxyfile, open_read, open_write, file_write,
    log, get_state, set_fs, raise, from_result, mbind, M_bind, mret, M_ret;
  cbn [fs cwd_writable trace globals].

(** *** The three ways a call of [configureDoxyfile] ends *)

Section Configure.
Variables input_dir output_dir : string.
Variable st : state.

Lemma configureDoxyfile_read_raise (e : exn) :
  read_file (fs st) "Doxyfile.in" = Raise e →
  configureDoxyfile input_dir output_dir st
  = (Raise e, logged [EvCall "configureDoxyfile" [input_dir; output_dir];
                      EvOpen "Doxyfile.in" ModeR] st).
Proof.
  intros H. run. rewrite H. unfold logged. by rewrite <- app_assoc.
Qed.

Lemma configureDoxyfile_write_raise (template : string) (e : exn) :
  read_file (fs st) "Doxyfile.in" = Ok template →
  truncate (fs st) (cwd_writable st) "Doxyfile" = Raise e →
  configureDoxyfile input_dir output_dir st
  = (Raise e, logged [EvCall "configureDoxyfile" [input_dir; output_dir];
                      EvOpen "Doxyfile.in" ModeR;
                      EvOpen "Doxyfile" ModeW] st).
Proof.
  intros Hr Hw. run. rewrite Hr, Hw. unfold logged. by rewrite <- !app_assoc.
Qed.

Lemma configureDoxyfile_ok (template : string) (f : gmap string node) :
  read_file (fs st) "Doxyfile.in" = Ok template →
  truncate (fs st) (cwd_writable st) "Doxyfile" = Ok f →
  let data := replace (replace template TOKEN_INPUT input_dir)
                TOKEN_OUTPUT output_dir in
  ∃ r w,
    configureDoxyfile input_dir output_dir st
    = (Ok tt,
       mkState (<["Doxyfile" := File data r w]> (fs st)) (cwd_writable st)
         (trace st ++ configure_events input_dir output_dir data)
         (globals st)).
Proof.
  intros Hr Hw data. destruct (truncate_ok _ _ _ _ Hw) as (r & w & ->).
  exists r, w. run. rewrite Hr, Hw. cbn [fs cwd_writable trace globals].
  rewrite lookup_insert_eq. cbn [fs cwd_writable trace globals].
  rewrite insert_insert_eq, <- !app_assoc. done.
Qed.

(** What a complete call leaves in [Doxyfile]. *)
Lemma configureDoxyfile_written (template : string) :
  read_file (fs st) "Doxyfile.in" = Ok template →
  can_open_write st "Doxyfile" = true →
  fst (configureDoxyfile input_dir output_dir st) = Ok tt ∧
  file_content (snd (configureDoxyfile input_dir output_dir st)) "Doxyfile"
  = Some (replace (replace template TOKEN_INPUT input_dir)
            TOKEN_OUTPUT output_dir).
Proof.
  intros Hr Hw. apply can_open_write_true in Hw as [f Hw].
  destruct (configureDoxyfile_ok _ _ Hr Hw) as (r & w & ->).
  split; [done |]. unfold file_content. cbn [snd fs].
  by rewrite lookup_insert_eq.
Qed.

End Configure.

(** *** The sections of the script *)

Lemma general_section_run (st : state) :
  ∃ g, general_section st = (Ok tt, mkState (fs st) (cwd_writable st) (trace st) g)
       ∧ g !! "breathe_projects" = globals st !! "breathe_projects".
Proof.
  unfold general_section. assigns.
  eexists; split; [reflexivity |]. by rewrite !lookup_insert_ne by done.
Qed.

Lemma pdf_section_run (st : state) :
  ∃ g, pdf_section st = (Ok tt, mkState (fs st) (cwd_writable st) (trace st) g)
       ∧ g !! "breathe_projects" = globals st !! "breathe_projects".
Proof.
  unfold pdf_section. assigns.
  eexists; split; [reflexivity |]. by rewrite !lookup_insert_ne by done.
Qed.

Lemma breathe_section_run (st : state) (d : gmap string value) :
  globals st !! "breathe_projects" = Some (VDict d) →
  ∃ g, breathe_section st = (Ok tt, mkState (fs st) (cwd_writable st) (trace st) g)
       ∧ g !! "breathe_projects"
         = Some (VDict (<["posixcpptimer" := VStr "../build/docs/doxygen/xml"]> d)).
Proof.
  intros H. unfold breathe_section.
  erewrite bind_ok; [|by apply setitem_run].
  rewrite assign_run. cbn [fs cwd_writable trace globals].
  eexists; split; [reflexivity |].
  rewrite lookup_insert_ne by done. apply lookup_insert_eq.
Qed.

(** The sections after the doxygen section touch no file and leave no
    event; they register the fallback path. *)
Lemma later_sections_run (st : state) (d : gmap string value) :
  globals st !! "breathe_projects" = Some (VDict d) →
  ∃ g,
    (general_section;; breathe_section;; pdf_section) st
    = (Ok tt, mkState (fs st) (cwd_writable st) (trace st) g)
    ∧ g !! "breathe_projects"
      = Some (VDict (<["posixcpptimer" := VStr "../build/docs/doxygen/xml"]> d)).
Proof.
  intros H.
  destruct (general_section_run st) as (g1 & E1 & H1).
  erewrite bind_ok; [|exact E1].
  rewrite H in H1.
  destruct (breathe_section_run (mkState (fs st) (cwd_writable st) (trace st) g1) d H1)
    as (g2 & E2 & H2).
  cbn [fs cwd_writable trace globals] in E2.
  erewrite bind_ok; [|exact E2].
  destruct (pdf_section_run (mkState (fs st) (cwd_writable st) (trace st) g2))
    as (g3 & E3 & H3).
  cbn [fs cwd_writable trace globals] in E3, H3.
  exists g3. split; [exact E3 | by rewrite H3].
Qed.

Section Doxygen.
Variable env : Env.
Variable st : state.

Lemma doxygen_section_local :
  read_the_docs_build env = false →
  doxygen_section env st
  = (Ok tt, mkState (fs st) (cwd_writable st) (trace st)
              (<["breathe_projects" := VDict ∅]>
                 (<["read_the_docs_build" := VBool false]> (globals st)))).
Proof. intros H. unfold doxygen_section. rewrite H. by assigns. Qed.

(** With [READTHEDOCS] set, the section comes down to the three calls
    of its branch. *)
Lemma doxygen_section_rtd :
  read_the_docs_build env = true →
  doxygen_section env st
  = (configureDoxyfile "../include" "build";;
     _ ← subprocess_call env "doxygen";
     setitem "breathe_projects" "posixcpptimer" (VStr "build/xml"))
      (mkState (fs st) (cwd_writable st) (trace st)
         (globals_at_call (globals st))).
Proof. intros H. unfold doxygen_section. rewrite H. by assigns. Qed.

Lemma globals_at_call_dict (g : gmap string value) :
  globals_at_call g !! "breathe_projects" = Some (VDict ∅).
Proof.
  unfold globals_at_call. rewrite !lookup_insert_ne by done.
  apply lookup_insert_eq.
Qed.

Lemma conf_local :
  read_the_docs_build env = false →
  ∃ g, conf env st = (Ok tt, mkState (fs st) (cwd_writable st) (trace st) g)
       ∧ g !! "breathe_projects"
         = Some (VDict {[ "posixcpptimer" := VStr "../build/docs/doxygen/xml" ]}).
Proof.
  intros H. unfold conf.
  erewrite bind_ok; [|by apply doxygen_section_local].
  destruct (later_sections_run
              (mkState (fs st) (cwd_writable st) (trace st)
                 (<["breathe_projects" := VDict ∅]>
                    (<["read_the_docs_build" := VBool false]> (globals st)))) ∅)
    as (g & E & Hg); [apply lookup_insert_eq |].
  exists g. split; [exact E |]. by rewrite Hg, insert_empty.
Qed.

Lemma conf_rtd_read_raise (e : exn) :
  read_the_docs_build env = true →
  read_file (fs st) "Doxyfile.in" = Raise e →
  conf env st
  = (Raise e,
     mkState (fs st) (cwd_writable st)
       (trace st ++ [EvCall "configureDoxyfile" ["../include"; "build"];
                     EvOpen "Doxyfile.in" ModeR])
       (globals_at_call (globals st))).
Proof.
  intros H Hr. unfold conf. apply bind_raise.
  rewrite doxygen_section_rtd by done. apply bind_raise.
  by apply configureDoxyfile_read_raise.
Qed.

Lemma conf_rtd_write_raise (template : string) (e : exn) :
  read_the_docs_build env = true →
  read_file (fs st) "Doxyfile.in" = Ok template →
  truncate (fs st) (cwd_writable st) "Doxyfile" = Raise e →
  conf env st
  = (Raise e,
     mkState (fs st) (cwd_writable st)
       (trace st ++ [EvCall "configureDoxyfile" ["../include"; "build"];
                     EvOpen "Doxyfile.in" ModeR;
                     EvOpen "Doxyfile" ModeW])
       (globals_at_call (globals st))).
Proof.
  intros H Hr Hw. unfold conf. apply bind_raise.
  rewrite doxygen_section_rtd by done. apply bind_raise.
  by eapply configureDoxyfile_write_raise.
Qed.

(** With [READTHEDOCS] set and both files at hand, the doxygen section
    completes: [Doxyfile] is written, doxygen runs, and
    [build/xml] is registered. *)
Lemma doxygen_section_rtd_ok (template : string) (f : gmap string node) :
  read_the_docs_build env = true →
  read_file (fs st) "Doxyfile.in" = Ok template →
  truncate (fs st) (cwd_writable st) "Doxyfile" = Ok f →
  let data := replace (replace template TOKEN_INPUT "../include")
                TOKEN_OUTPUT "build" in
  ∃ r w,
    doxygen_section env st
    = (Ok tt,
       mkState
         (snd (shell env "doxygen" (<["Doxyfile" := File data r w]> (fs st))))
         (cwd_writable st)
         (trace st ++ configure_events "../include" "build" data
            ++ [EvSubprocess "doxygen"])
         (<["breathe_projects" := VDict {[ "posixcpptimer" := VStr "build/xml" ]}]>
            (globals_at_call (globals st)))).
Proof.
  intros H Hr Hw data. rewrite doxygen_section_rtd by done.
  destruct (configureDoxyfile_ok "../include" "build"
              (mkState (fs st) (cwd_writable st) (trace st)
                 (globals_at_call (globals st))) template f Hr Hw)
    as (r & w & E).
  exists r, w. erewrite bind_ok; [|exact E].
  rewrite subprocess_call_discard. cbn [fs cwd_writable trace globals].
  erewrite setitem_run; [|apply globals_at_call_dict].
  cbn [fs cwd_writable trace globals]. by rewrite insert_empty, <- app_assoc.
Qed.

Lemma conf_rtd_ok (template : string) (f : gmap string node) :
  read_the_docs_build env = true →
  read_file (fs st) "Doxyfile.in" = Ok template →
  truncate (fs st) (cwd_writable st) "Doxyfile" = Ok f →
  let data := replace (replace template TOKEN_INPUT "../include")
                TOKEN_OUTPUT "build" in
  ∃ r w g,
    conf env st
    = (Ok tt,
       mkState
         (snd (shell env "doxygen" (<["Doxyfile" := File data r w]> (fs st))))
         (cwd_writable st)
         (trace st ++ configure_events "../include" "build" data
            ++ [EvSubprocess "doxygen"])
         g)
    ∧ g !! "breathe_projects"
      = Some (VDict {[ "posixcpptimer" := VStr "../build/docs/doxygen/xml" ]}).
Proof.
  intros H Hr Hw data.
  destruct (doxygen_section_rtd_ok template f H Hr Hw) as (r & w & E).
  exists r, w. unfold conf. erewrite bind_ok; [|exact E].
  match goal with |- ∃ g, _ ?s = _ ∧ _ =>
    destruct (later_sections_run s {[ "posixcpptimer" := VStr "build/xml" ]})
      as (g & E' & Hg); [apply lookup_insert_eq |]
  end.
  exists g. split; [exact E' |]. by rewrite Hg, insert_singleton_eq.
Qed.

End Doxygen.

End RunFacts.

(** * The properties of the script *)

Import Str StrFacts TokenFacts RunFacts.




(** C2 at a Read the Docs build with the template at hand: the call of
    doxygen is attempted and the doxygen section registers [build/xml], but
    at the end of the script [breathe_projects['posixcpptimer']] is the
    fallback path. *)
Theorem conf_rtd_registration_overwritten :
  environ (rtd_env 0) !! "READTHEDOCS" = Some "True" ∧
  fst (conf (rtd_env 0) (sample_state sample_template)) = Ok tt ∧
  trace (snd (conf (rtd_env 0) (sample_state sample_template)))
  = configure_events "../include" "build"
      "INPUT = ../include OUTPUT_DIRECTORY = build GENERATE_XML = YES"
    ++ [EvSubprocess "doxygen"] ∧
  breathe_projects
    (snd (doxygen_section (rtd_env 0) (sample_state sample_template)))
    "posixcpptimer" = Some "build/xml" ∧
  breathe_projects
    (snd (conf (rtd_env 0) (sample_state sample_template)))
    "posixcpptimer" = Some "../build/docs/doxygen/xml".
Proof. vm_compute. repeat split; reflexivity. Qed.

(** C3.  When [READTHEDOCS] is not exactly ["True"] (unset included), the
    script completes without a single event (no call of
    [configureDoxyfile], no file opened, no subprocess), leaves the
    directory as it was, and registers the fallback path. *)
Theorem conf_local_no_doxygen (env : Env) (st : state) :
  environ env !! "READTHEDOCS" ≠ Some "True" →
  fst (conf env st) = Ok tt ∧
  trace (snd (conf env st)) = trace st ∧
  fs (snd (conf env st)) = fs st ∧
  breathe_projects (snd (conf env st)) "posixcpptimer"
  = Some "../build/docs/doxygen/xml".
Proof.
  intros H.
  assert (read_the_docs_build env = false) as Hb
    by (by apply bool_decide_eq_false).
  destruct (conf_local env st Hb) as (g & -> & Hg).
  cbn [fst snd trace fs]. repeat split.
  unfold breathe_projects. cbn [globals]. rewrite Hg.
  by rewrite lookup_singleton_eq.
Qed.

Lemma conf_local_no_doxygen_witness :
  fst (conf lowercase_env (sample_state sample_template)) = Ok tt ∧
  trace (snd (conf lowercase_env (sample_state sample_template))) = [] ∧
  fs (snd (conf lowercase_env (sample_state sample_template)))
  = fs (sample_state sample_template) ∧
  breathe_projects (snd (conf lowercase_env (sample_state sample_template)))
    "posixcpptimer"
  = Some "../build/docs/doxygen/xml".
Proof.
  apply (conf_local_no_doxygen lowercase_env (sample_state sample_template)).
  vm_compute. discriminate.
Defined.

(** C4.  Two runs whose shells differ only in the exit status they return
    end in the same result and the same state: directory, events and the
    whole module namespace. *)
Theorem conf_ignores_exit_status (env1 env2 : Env) (st : state) :
  environ env1 = environ env2 →
  (∀ cmd f, snd (shell env1 cmd f) = snd (shell env2 cmd f)) →
  conf env1 st = conf env2 st.
Proof.
  intros Henv Hsh. unfold conf.
  assert (doxygen_section env1 st = doxygen_section env2 st) as E.
  { assert (read_the_docs_build env2 = read_the_docs_build env1) as Hb
      by (unfold read_the_docs_build; by rewrite Henv).
    destruct (read_the_docs_build env1) eqn:H1.
    - rewrite !doxygen_section_rtd by done.
      unfold mbind at 1 3. unfold M_bind.
      destruct (configureDoxyfile _ _ _) as [[[]|e] st1]; [|done].
      by rewrite !subprocess_call_discard, Hsh.
    - by rewrite !doxygen_section_local. }
  unfold mbind at 1 4. unfold M_bind. by rewrite E.
Qed.

Lemma conf_ignores_exit_status_witness :
  conf (rtd_env 0) (sample_state sample_template)
  = conf (rtd_env 1) (sample_state sample_template).
Proof.
  apply (conf_ignores_exit_status (rtd_env 0) (rtd_env 1)
           (sample_state sample_template)).
  - reflexivity.
  - intros cmd f. reflexivity.
Defined.








(** C8.  Whenever the script runs to its end, with [READTHEDOCS] set or
    not, [breathe_projects['posixcpptimer']] is the fallback path: the
    assignment of the Breathe section comes last. *)
Theorem conf_breathe_projects_final (env : Env) (st st' : state) :
  conf env st = (Ok tt, st') →
  breathe_projects st' "posixcpptimer" = Some "../build/docs/doxygen/xml".
Proof.
  intros H.
  assert (∃ g, globals st' = g ∧
               g !! "breathe_projects"
               = Some (VDict {[ "posixcpptimer" := VStr "../build/docs/doxygen/xml" ]}))
    as (g & Hg & Hd).
  { destruct (read_the_docs_build env) eqn:Hb.
    - destruct (read_file (fs st) "Doxyfile.in") as [template|e] eqn:Hr.
      + destruct (truncate (fs st) (cwd_writable st) "Doxyfile") as [f|e] eqn:Hw.
        * destruct (conf_rtd_ok env st template f Hb Hr Hw) as (r & w & g & E & Hg).
          rewrite E in H. injection H as <-. by exists g.
        * by rewrite (conf_rtd_write_raise env st template e Hb Hr Hw) in H.
      + by rewrite (conf_rtd_read_raise env st e Hb Hr) in H.
    - destruct (conf_local env st Hb) as (g & E & Hg).
      rewrite E in H. injection H as <-. by exists g. }
  unfold breathe_projects. rewrite Hg, Hd. by rewrite lookup_singleton_eq.
Qed.

Lemma conf_breathe_projects_final_witness :
  breathe_projects (snd (conf (rtd_env 0) (sample_state sample_template)))
    "posixcpptimer"
  = Some "../build/docs/doxygen/xml".
Proof.
  apply (conf_breathe_projects_final (rtd_env 0) (sample_state sample_template)).
  vm_compute. reflexivity.
Defined.

(** C9.  The replacements run one after the other, input token first.
    With an [input_dir] that contains the output token, on a template that
    has no output token of its own, the occurrence the first replacement
    brings in is replaced by [output_dir] in what is written; in the other
    order it would have stayed. *)
Theorem configureDoxyfile_sequential :
  contains TOKEN_OUTPUT tricky_input_dir = true ∧
  contains TOKEN_OUTPUT input_only_template = false ∧
  file_content
    (snd (configureDoxyfile tricky_input_dir "build" (sample_state input_only_template)))
    "Doxyfile"
  = Some "INPUT = src/build/include" ∧
  replace (replace input_only_template TOKEN_INPUT tricky_input_dir)
    TOKEN_OUTPUT "build"
  = "INPUT = src/build/include" ∧
  replace (replace input_only_template TOKEN_OUTPUT "build")
    TOKEN_INPUT tricky_input_dir
  = "INPUT = src/@DOXYGEN_OUTPUT_DIR@/include".
Proof. vm_compute. repeat split; reflexivity. Qed.



(** * Further properties *)

(** ** Tokens of the shape [@stem@] under a replacement *)

Module ShapeFacts.
Import Str StrFacts.

Lemma contains_skip_char (a : ascii) (p body s : string) :
  has_char a body = false →
  contains (String a p) (body +:+ s) = contains (String a p) s.
Proof.
  induction body as [|x body IH]; intros H; [done |].
  simpl in H. apply orb_false_elim in H as [Hx Hb].
  rewrite append_cons. cbn [contains]. rewrite (IH Hb).
  cbn [startswith]. by rewrite Hx.
Qed.

Section Shape.
Variables old new stem : string.
Hypothesis old_nonempty : old ≠ "".
Hypothesis no_at : has_char "@" new = false.
Hypothesis not_in_stem : contains new stem = false.

(** The text a replacement puts in cannot complete a token [@stem@] that
    started before it. *)
Lemma piece_survives (q pre t : string) :
  stem = pre +:+ q →
  startswith (q +:+ "@") (replace t old new) = true →
  startswith (q +:+ "@") t = true.
Proof using old_nonempty no_at not_in_stem.
  revert pre t; induction q as [|c q IH]; intros pre t Hq H.
  - destruct t as [|x t].
    { by rewrite (replace_empty _ _ old_nonempty) in H. }
    destruct (startswith old (String x t)) eqn:E.
    + exfalso. apply startswith_inv in E. rewrite E in H.
      rewrite (replace_hit _ _ old_nonempty) in H.
      apply startswith_app_cases in H as [[p2 Hp] | [a2 Ha]].
      * apply (prefix_before_at new "" p2) in Hp as [q2 Hq2]; [|done].
        destruct new; [|discriminate]. by destruct stem.
      * rewrite Ha in no_at. by vm_compute in no_at.
    + rewrite replace_miss in H by done. exact H.
  - destruct t as [|x t].
    { by rewrite (replace_empty _ _ old_nonempty) in H. }
    destruct (startswith old (String x t)) eqn:E.
    + exfalso. apply startswith_inv in E. rewrite E in H.
      rewrite (replace_hit _ _ old_nonempty) in H.
      apply startswith_app_cases in H as [[p2 Hp] | [a2 Ha]].
      * apply prefix_before_at in Hp as [q2 Hq2]; [|done].
        rewrite Hq2, <- append_assoc in Hq.
        pose proof (startswith_append new q2) as Hs.
        apply contains_startswith, (contains_append_l _ pre) in Hs.
        rewrite append_assoc in Hq. rewrite <- Hq in Hs. congruence.
      * rewrite Ha, !has_char_append in no_at.
        simpl in no_at. by rewrite orb_true_r in no_at.
    + rewrite replace_miss in H by done.
      rewrite append_cons in *. apply startswith_cons in H as [-> H].
      apply startswith_cons; split; [done |].
      apply (IH (pre +:+ String x "")); [|done].
      by rewrite append_assoc.
Qed.

Lemma token_survives (c : ascii) (t : string) :
  startswith (String "@" (stem +:+ "@")) (String c (replace t old new)) = true →
  startswith (String "@" (stem +:+ "@")) (String c t) = true.
Proof using old_nonempty no_at not_in_stem.
  intros H. apply startswith_cons in H as [<- H].
  apply startswith_cons; split; [done |].
  by apply (piece_survives stem "").
Qed.

(** A replacement does not bring a token [@stem@] into a text that had
    none. *)
Lemma token_stays_absent (s : string) :
  contains (String "@" (stem +:+ "@")) s = false →
  contains (String "@" (stem +:+ "@")) (replace s old new) = false.
Proof using old_nonempty no_at not_in_stem.
  remember (String.length s) as n eqn:Hn. revert s Hn.
  induction n as [n IH] using lt_wf_ind. intros s Hn Hs.
  destruct s as [|c t].
  { by rewrite replace_empty. }
  destruct (startswith old (String c t)) eqn:E.
  - apply startswith_inv in E. set (r := drop _ _) in E.
    rewrite E in Hs |- *. rewrite (replace_hit _ _ old_nonempty).
    rewrite contains_skip_char by done.
    apply (IH (String.length r)); [|done|by eapply not_contains_suffix].
    rewrite Hn, E, length_append.
    pose proof (old_length_pos _ old_nonempty). lia.
  - rewrite replace_miss by done.
    apply not_contains_inv in Hs as [Hs1 Hs2].
    cbn [contains]. apply orb_false_intro.
    + destruct (startswith _ (String c (replace t old new))) eqn:E'; [|done].
      apply token_survives in E'. congruence.
    + apply (IH (String.length t)); [rewrite Hn; simpl; lia|done|done].
Qed.

End Shape.

(** Replacing a token [@stem@] by a text without [@] that is not a piece
    of [stem] leaves no such token. *)
Lemma token_removed (stem new s : string) :
  has_char "@" new = false →
  contains new stem = false →
  contains (String "@" (stem +:+ "@"))
    (replace s (String "@" (stem +:+ "@")) new) = false.
Proof.
  intros Hat Hstem.
  assert (String "@" (stem +:+ "@") ≠ "") as Hne by done.
  remember (String.length s) as n eqn:Hn. revert s Hn.
  induction n as [n IH] using lt_wf_ind. intros s Hn.
  destruct s as [|c t].
  { by rewrite replace_empty. }
  destruct (startswith (String "@" (stem +:+ "@")) (String c t)) eqn:E.
  - apply startswith_inv in E. set (r := drop _ _) in E.
    rewrite E. rewrite (replace_hit _ _ Hne).
    rewrite contains_skip_char by done.
    apply (IH (String.length r)); [|done].
    rewrite Hn, E, length_append. simpl. lia.
  - rewrite replace_miss by done.
    cbn [contains]. apply orb_false_intro.
    + destruct (startswith _ (String c (replace t _ new))) eqn:E'; [|done].
      apply (token_survives _ _ _ Hne Hat Hstem) in E'. congruence.
    + apply (IH (String.length t)); [rewrite Hn; simpl; lia|done].
Qed.

(** *** Splitting a text at a character the pattern lacks *)

Section Separator.
Variables old new : string.
Variable c : ascii.
Hypothesis old_nonempty : old ≠ "".
Hypothesis not_in_old : has_char c old = false.



End Separator.

End ShapeFacts.

(** ** More on running the script *)

Module MoreRunFacts.
Import Str StrFacts TokenFacts RunFacts ShapeFacts.

(** What the two replacements of [configureDoxyfile] leave of the tokens. *)
Lemma no_output_token_left (template input_dir output_dir : string) :
  has_char "@" output_dir = false →
  contains output_dir OUTPUT_STEM = false →
  contains TOKEN_OUTPUT
    (replace (replace template TOKEN_INPUT input_dir) TOKEN_OUTPUT output_dir)
  = false.
Proof.
  intros Hat Hstem.
  change TOKEN_OUTPUT with (String "@" (OUTPUT_STEM +:+ "@")).
  by apply token_removed.
Qed.

Lemma no_input_token_left (template input_dir output_dir : string) :
  has_char "@" input_dir = false →
  contains input_dir INPUT_STEM = false →
  has_char "@" output_dir = false →
  contains output_dir INPUT_STEM = false →
  contains TOKEN_INPUT
    (replace (replace template TOKEN_INPUT input_dir) TOKEN_OUTPUT output_dir)
  = false.
Proof.
  intros Hi1 Hi2 Ho1 Ho2.
  change TOKEN_INPUT with (String "@" (INPUT_STEM +:+ "@")) at 1.
  apply token_stays_absent; [done | done | done |].
  change TOKEN_INPUT with (String "@" (INPUT_STEM +:+ "@")).
  by apply token_removed.
Qed.





Lemma pdf_section_keeps (st : state) :
  ∃ g, pdf_section st = (Ok tt, mkState (fs st) (cwd_writable st) (trace st) g)
       ∧ g !! "breathe_projects" = globals st !! "breathe_projects"
       ∧ g !! "breathe_default_project" = globals st !! "breathe_default_project".
Proof.
  unfold pdf_section. assigns.
  eexists; split; [reflexivity |].
  split; by rewrite !lookup_insert_ne by done.
Qed.

(** The sections after the doxygen section, with the two Breathe options
    they leave. *)
Lemma later_sections_breathe (st : state) (d : gmap string value) :
  globals st !! "breathe_projects" = Some (VDict d) →
  ∃ g,
    (general_section;; breathe_section;; pdf_section) st
    = (Ok tt, mkState (fs st) (cwd_writable st) (trace st) g)
    ∧ g !! "breathe_projects"
      = Some (VDict (<["posixcpptimer" := VStr "../build/docs/doxygen/xml"]> d))
    ∧ g !! "breathe_default_project" = Some (VStr "posixcpptimer").
Proof.
  intros H.
  destruct (general_section_run st) as (g1 & E1 & H1).
  erewrite bind_ok; [|exact E1].
  rewrite H in H1. unfold breathe_section.
  erewrite bind_ok; [|erewrite bind_ok; [|by apply setitem_run]; apply assign_run].
  cbn [fs cwd_writable trace globals].
  match goal with |- ∃ g, pdf_section ?s = _ ∧ _ =>
    destruct (pdf_section_keeps s) as (g3 & E3 & H3 & H4)
  end.
  cbn [fs cwd_writable trace globals] in E3, H3, H4.
  exists g3. split; [exact E3 |]. rewrite H3, H4. split.
  - rewrite lookup_insert_ne by done. apply lookup_insert_eq.
  - apply lookup_insert_eq.
Qed.

(** A run that reaches the end went through the later sections with
    [breathe_projects] bound to a dict. *)
Lemma conf_ok_later (env : Env) (st st' : state) :
  conf env st = (Ok tt, st') →
  ∃ st1 d,
    globals st1 !! "breathe_projects" = Some (VDict d) ∧
    (general_section;; breathe_section;; pdf_section) st1 = (Ok tt, st').
Proof.
  intros H.
  destruct (read_the_docs_build env) eqn:Hb.
  - destruct (read_file (fs st) "Doxyfile.in") as [template|e] eqn:Hr.
    + destruct (truncate (fs st) (cwd_writable st) "Doxyfile") as [f|e] eqn:Hw.
      * destruct (doxygen_section_rtd_ok env st template f Hb Hr Hw) as (r & w & E).
        unfold conf in H. rewrite (bind_ok _ _ _ _ _ E) in H.
        eexists _, _. split; [|exact H]. apply lookup_insert_eq.
      * by rewrite (conf_rtd_write_raise env st template e Hb Hr Hw) in H.
    + by rewrite (conf_rtd_read_raise env st e Hb Hr) in H.
  - unfold conf in H.
    rewrite (bind_ok _ _ _ _ _ (doxygen_section_local env st Hb)) in H.
    eexists _, _. split; [|exact H]. apply lookup_insert_eq.
Qed.

End MoreRunFacts.

(** ** What else the script guarantees *)

Import ShapeFacts MoreRunFacts.

(** X1.  With an [output_dir] that has no [@] and is not a piece of
    [DOXYGEN_OUTPUT_DIR], the written [Doxyfile] has no output token left,
    whatever the template and [input_dir] are. *)
Theorem configureDoxyfile_no_output_token
    (st : state) (template input_dir output_dir : string) :
  read_file (fs st) "Doxyfile.in" = Ok template →
  can_open_write st "Doxyfile" = true →
  has_char "@" output_dir = false →
  contains output_dir OUTPUT_STEM = false →
  ∃ data,
    file_content (snd (configureDoxyfile input_dir output_dir st)) "Doxyfile"
    = Some data ∧
    contains TOKEN_OUTPUT data = false.
Proof.
  intros Hr Hw Hat Hstem.
  destruct (configureDoxyfile_written input_dir output_dir st template Hr Hw)
    as [_ Hfile].
  eexists. split; [exact Hfile |]. by apply no_output_token_left.
Qed.

Lemma configureDoxyfile_no_output_token_witness :
  ∃ data,
    file_content
      (snd (configureDoxyfile tricky_input_dir "build" (sample_state two_token_template)))
      "Doxyfile" = Some data ∧
    contains TOKEN_OUTPUT data = false.
Proof.
  apply (configureDoxyfile_no_output_token (sample_state two_token_template)
           two_token_template tricky_input_dir "build"); reflexivity.
Defined.

(** X2.  When neither argument has an [@] or is a piece of
    [DOXYGEN_INPUT_DIR], the written [Doxyfile] has no input token left,
    whatever the template is. *)
Theorem configureDoxyfile_no_input_token
    (st : state) (template input_dir output_dir : string) :
  read_file (fs st) "Doxyfile.in" = Ok template →
  can_open_write st "Doxyfile" = true →
  has_char "@" input_dir = false →
  contains input_dir INPUT_STEM = false →
  has_char "@" output_dir = false →
  contains output_dir INPUT_STEM = false →
  ∃ data,
    file_content (snd (configureDoxyfile input_dir output_dir st)) "Doxyfile"
    = Some data ∧
    contains TOKEN_INPUT data = false.
Proof.
  intros Hr Hw Hi1 Hi2 Ho1 Ho2.
  destruct (configureDoxyfile_written input_dir output_dir st template Hr Hw)
    as [_ Hfile].
  eexists. split; [exact Hfile |]. by apply no_input_token_left.
Qed.

Lemma configureDoxyfile_no_input_token_witness :
  ∃ data,
    file_content
      (snd (configureDoxyfile "../include" "build" (sample_state overlapping_template)))
      "Doxyfile" = Some data ∧
    contains TOKEN_INPUT data = false.
Proof.
  apply (configureDoxyfile_no_input_token (sample_state overlapping_template)
           overlapping_template "../include" "build"); reflexivity.
Defined.









(** X7.  The events of a run of the script are one of four sequences:
    none (no Read the Docs build); the call and the failed open of
    [Doxyfile.in]; the call, the read and the failed open of [Doxyfile];
    or the complete call of [configureDoxyfile] followed by one call of
    doxygen.  So doxygen runs at most once, only after [Doxyfile] has been
    written, and no other file is opened. *)
Theorem conf_events (env : Env) (st : state) :
  ∃ evs,
    trace (snd (conf env st)) = trace st ++ evs ∧
    ((evs = [] ∧ fst (conf env st) = Ok tt ∧
      environ env !! "READTHEDOCS" ≠ Some "True") ∨
     (∃ e, evs = [EvCall "configureDoxyfile" ["../include"; "build"];
                  EvOpen "Doxyfile.in" ModeR] ∧
           fst (conf env st) = Raise e) ∨
     (∃ e, evs = [EvCall "configureDoxyfile" ["../include"; "build"];
                  EvOpen "Doxyfile.in" ModeR; EvOpen "Doxyfile" ModeW] ∧
           fst (conf env st) = Raise e) ∨
     (∃ data, evs = configure_events "../include" "build" data
                    ++ [EvSubprocess "doxygen"] ∧
              fst (conf env st) = Ok tt)).
Proof.
  destruct (read_the_docs_build env) eqn:Hb.
  - destruct (read_file (fs st) "Doxyfile.in") as [template|e] eqn:Hr.
    + destruct (truncate (fs st) (cwd_writable st) "Doxyfile") as [f|e] eqn:Hw.
      * destruct (conf_rtd_ok env st template f Hb Hr Hw) as (r & w & g & -> & _).
        eexists. split; [reflexivity |]. do 3 right. by eexists.
      * rewrite (conf_rtd_write_raise env st template e Hb Hr Hw).
        eexists. split; [reflexivity |]. right. right. left. by exists e.
    + rewrite (conf_rtd_read_raise env st e Hb Hr).
      eexists. split; [reflexivity |]. right. left. by exists e.
  - destruct (conf_local env st Hb) as (g & -> & _).
    exists []. split; [by rewrite app_nil_r |]. left.
    split; [done |]. split; [done |].
    unfold read_the_docs_build in Hb. by apply bool_decide_eq_false in Hb.
Qed.

Lemma conf_events_witness :
  ∃ evs,
    trace (snd (conf (rtd_env 1) (readonly_state sample_template)))
    = trace (readonly_state sample_template) ++ evs ∧
    ((evs = [] ∧ fst (conf (rtd_env 1) (readonly_state sample_template)) = Ok tt ∧
      environ (rtd_env 1) !! "READTHEDOCS" ≠ Some "True") ∨
     (∃ e, evs = [EvCall "configureDoxyfile" ["../include"; "build"];
                  EvOpen "Doxyfile.in" ModeR] ∧
           fst (conf (rtd_env 1) (readonly_state sample_template)) = Raise e) ∨
     (∃ e, evs = [EvCall "configureDoxyfile" ["../include"; "build"];
                  EvOpen "Doxyfile.in" ModeR; EvOpen "Doxyfile" ModeW] ∧
           fst (conf (rtd_env 1) (readonly_state sample_template)) = Raise e) ∨
     (∃ data, evs = configure_events "../include" "build" data
                    ++ [EvSubprocess "doxygen"] ∧
              fst (conf (rtd_env 1) (readonly_state sample_template)) = Ok tt)).
Proof.
  exact (conf_events (rtd_env 1) (readonly_state sample_template)).
Defined.



(** X9.  Whenever the script runs to its end, [breathe_default_project]
    names a project that [breathe_projects] has an entry for. *)
Theorem conf_default_project_registered (env : Env) (st st' : state) :
  conf env st = (Ok tt, st') →
  ∃ project,
    globals st' !! "breathe_default_project" = Some (VStr project) ∧
    is_Some (breathe_projects st' project).
Proof.
  intros H.
  destruct (conf_ok_later env st st' H) as (st1 & d & Hd & E).
  destruct (later_sections_breathe st1 d Hd) as (g & E' & Hg1 & Hg2).
  rewrite E' in E. injection E as <-.
  exists "posixcpptimer". split; [exact Hg2 |].
  unfold breathe_projects. cbn [globals]. rewrite Hg1.
  by rewrite lookup_insert_eq.
Qed.

Lemma conf_default_project_registered_witness :
  ∃ project,
    globals (snd (conf local_env (sample_state sample_template)))
      !! "breathe_default_project" = Some (VStr project) ∧
    is_Some (breathe_projects (snd (conf local_env (sample_state sample_template)))
               project).
Proof.
  apply (conf_default_project_registered local_env (sample_state sample_template)).
  vm_compute. reflexivity.
Defined.
